(** * uriproj: projections from coordinate reference system URIs

    A shallow embedding of [src/index.js], the module behind the public
    operations [get], [load] and [set], together with the axis wrapper
    [flipLatLon] and [load] from the module's previous revision.

    Modelling conventions.
    - A JavaScript number is an IEEE 754 double: [PrimFloat.float].  The
      module never computes with coordinates, it only moves them.
    - A coordinate array is a [list] of elements; reading past the end of an
      array yields [undefined], which is an element of its own.
    - A projection object is the pair of its [forward] and [inverse]
      functions, taken as pure functions of the array contents.
    - [projCache], an object literal used as a dictionary of URIs, is a
      [gmap string value]: its keys are the object's own properties.
    - Exceptions are values of [exn]; synchronous code that reads or writes
      the cache lives in the state-and-exception monad [M].
    - [proj4] and [fetch] are external: the first is a parameter of the
      module, the second is an event of a [run], answered by a [network]. *)

From Stdlib Require Import PrimFloat.
From stdpp Require Import gmap strings list fin_maps pretty.

Local Open Scope string_scope.

(** ** Coordinates and projections *)

Definition number := float.

Inductive elem : Type :=
| Undef
| Num (x : number).

Definition position := list elem.

(** [pos[i]] *)
Definition at_index (pos : position) (i : nat) : elem := nth i pos Undef.

(** The [Projection] typedef: an object with a [forward] and an [inverse]
    function from coordinate arrays to coordinate arrays. *)
Record Projection : Type := {
  forward : position -> position;
  inverse : position -> position
}.

(** [Array.prototype.reverse], as the value it returns. *)
Definition reverse (pos : position) : position := rev pos.

(** [reverseAxes] (index.js): [forward] reverses what the wrapped forward
    returns, [inverse] hands [[pos[1], pos[0]]] to the wrapped inverse. *)
Definition reverseAxes (proj : Projection) : Projection := {|
  forward := fun pos => reverse (forward proj pos);
  inverse := fun pos => inverse proj [at_index pos 1; at_index pos 0]
|}.

(** [flipLatLon], the same wrapper under its earlier name. *)
Definition flipLatLon (proj : Projection) : Projection := {|
  forward := fun pos => reverse (forward proj pos);
  inverse := fun pos => inverse proj [at_index pos 1; at_index pos 0]
|}.

(** ** Values and exceptions *)

(** The values that reach [set] and the cache: absent arguments, PROJ.4
    strings and projection objects. *)
Inductive value : Type :=
| Undefined
| Null
| Str (s : string)
| Obj (p : Projection).

(** [!!v] *)
Definition truthy (v : value) : bool :=
  match v with
  | Undefined | Null => false
  | Str EmptyString => false
  | Str (String _ _) => true
  | Obj _ => true
  end.

(** [typeof v] *)
Definition typeof (v : value) : string :=
  match v with
  | Undefined => "undefined"
  | Null => "object"
  | Str _ => "string"
  | Obj _ => "object"
  end.

Inductive exn : Type :=
| Error (message : string)
| ReferenceError (identifier : string)
| TypeError (message : string).

(** ** The cache and the monad of synchronous module code *)

Abbreviation cache := (gmap string value).

Definition M (A : Type) : Type := cache -> (exn + A) * cache.

#[global] Instance M_ret : MRet M := fun A a c => (inr a, c).

#[global] Instance M_bind : MBind M := fun A B f m c =>
  match m c with
  | (inl e, c') => (inl e, c')
  | (inr a, c') => f a c'
  end.

(** [throw e] *)
Definition throw {A : Type} (e : exn) : M A := fun c => (inl e, c).

(** [projCache[crsUri]] *)
Definition read (crsUri : string) : M value :=
  fun c => (inr (default Undefined (c !! crsUri)), c).

(** [projCache[crsUri] = v] *)
Definition store (crsUri : string) (v : value) : M unit :=
  fun c => (inr tt, <[crsUri := v]> c).

(** ** Identifier resolution

    The bindings visible inside the body of [set]: its three parameters and
    the top-level bindings of the module (the [proj4] import, the constants,
    and the function declarations, which are hoisted).  The body declares no
    local of its own. *)
Definition set_scope : list string :=
  [ "crsUri"; "proj"; "options";
    "proj4"; "ROOT_PREFIX"; "OGC_PREFIX"; "EPSG_PREFIX"; "projCache";
    "needsAxesReordering"; "LONLAT";
    "get"; "load"; "set"; "crsUriToEPSG"; "reverseAxes" ].

(** Evaluating an identifier that no enclosing scope binds throws a
    ReferenceError; the evaluation produces no value of any type. *)
Definition unbound {A : Type} (identifier : string) : M A :=
  throw (ReferenceError identifier).

(** ** Constants *)

Definition ROOT_PREFIX : string := "http://www.opengis.net/def/crs/".
Definition OGC_PREFIX : string := ROOT_PREFIX ++ "OGC/".
Definition EPSG_PREFIX : string := ROOT_PREFIX ++ "EPSG/0/".

(** [{ [EPSG_PREFIX + 4326]: true }] *)
Definition needsAxesReordering : gmap string bool :=
  {[ EPSG_PREFIX ++ pretty 4326%N := true ]}.

(** [{ [EPSG_PREFIX + 4326]: true }] of the earlier revision. *)
Definition needsLatLonReordering : gmap string bool :=
  {[ EPSG_PREFIX ++ pretty 4326%N := true ]}.

(** [key in obj] for an object literal used as a dictionary. *)
Definition has_key {V : Type} (key : string) (obj : gmap string V) : bool :=
  bool_decide (is_Some (obj !! key)).

(** ** The URI parser *)

(** [s.indexOf(searchString)]: the position of the first occurrence, or -1. *)
Definition indexOf (s searchString : string) : Z :=
  match String.index 0 searchString s with
  | Some i => Z.of_nat i
  | None => (-1)%Z
  end.

(** [s.substr(start)]: everything from position [start] on. *)
Definition substr (s : string) (start : nat) : string :=
  String.substring start (String.length s - start) s.

Definition crsUriToEPSG (uri : string) : exn + string :=
  if (indexOf uri EPSG_PREFIX =? 0)%Z then
    inr (substr uri (String.length EPSG_PREFIX))
  else
    inl (Error ("Unsupported CRS URI: " ++ uri)).

(** ** The network *)

(** A [fetch] response: its status, and how [response.text()] settles (the
    body, or a rejection).  [response.ok] is true exactly for the statuses
    200 to 299. *)
Record response : Type := {
  status : N;
  text : exn + string
}.

Definition ok (r : response) : bool :=
  (200 <=? status r)%N && (status r <? 300)%N.

(** The template literal [`http://epsg.io/${epsg}.proj4`]. *)
Definition registry_url (epsg : string) : string :=
  "http://epsg.io/" ++ epsg ++ ".proj4".

(** How [fetch] settles: the transport fails, or a response arrives. *)
Inductive fetch_outcome : Type :=
| Failed (e : exn)
| Responded (r : response).

(** ** The cache operations *)

(** The [options] argument of [set]; its default [{}] has no [reverseAxes]
    property, which reads as a falsy [undefined]. *)
Record Options : Type := { opt_reverseAxes : bool }.

Definition default_options : Options := {| opt_reverseAxes := false |}.

(** ** Outcomes and runs *)

(** What a call of an operation gives its caller: an exception thrown
    before any promise exists, or a promise that is fulfilled or rejected. *)
Inductive outcome : Type :=
| Throws (e : exn)
| Resolves (v : value)
| Rejects (e : exn).

(** A run of [load]: it is over, with its outcome and the cache it leaves;
    or it is suspended on [fetch(url)], having left the cache [c], and
    continues from the answer of the network and from the cache as it is
    when the promise callbacks run. *)
Inductive run : Type :=
| Done (o : outcome) (c : cache)
| Fetch (url : string) (c : cache) (k : fetch_outcome -> cache -> run).

Section WithProj4.

(** The external projection-construction facility [proj4]: a Projection, or
    a falsy result when the definition string is not understood. *)
Variable proj4 : string -> option Projection.

Definition get (crsUri : string) : M value := read crsUri.

(** [set] (index.js).  In the string branch the argument of the [proj4]
    call is the identifier [proj4string], and the object tested and wrapped
    afterwards is [proj4obj]; neither name is in [set_scope], so both are
    [unbound] references, and what follows the first of them is written as
    the source has it but never runs. *)
Definition set (crsUri : string) (proj : value) (options : Options) : M value :=
  if negb (truthy (Str crsUri)) || negb (truthy proj) then
    throw (Error "crsUri and proj cannot be empty")
  else
    proj ← (if String.eqb (typeof proj) "string" then
              proj4string ← unbound "proj4string";
              let proj := proj4 proj4string in
              proj4obj ← unbound "proj4obj";
              match proj4obj with
              | None => throw (Error ("Unsupported proj4 string: " ++ proj4string))
              | Some proj4obj =>
                  if opt_reverseAxes options then mret (Obj (reverseAxes proj4obj))
                  else mret (from_option Obj Undefined proj)
              end
            else mret proj);
    store crsUri proj;;
    mret proj.

(** Module initialisation (the top-level statements of index.js): the
    cache starts empty and receives the two built-in projections. *)
Definition LONLAT_DEF : string := "+proj=longlat +datum=WGS84 +no_defs".

Definition initialise : M unit :=
  let LONLAT := proj4 LONLAT_DEF in
  match LONLAT with
  | Some LONLAT =>
      set (OGC_PREFIX ++ "1.3/CRS84") (Obj LONLAT) default_options;;
      set (EPSG_PREFIX ++ pretty 4979%N) (Obj (reverseAxes LONLAT)) default_options;;
      mret tt
  | None =>
      set (OGC_PREFIX ++ "1.3/CRS84") Undefined default_options;;
      mret tt
  end.

(** ** The resolver *)

(** The promise callbacks of [load]: the first checks [response.ok] and
    reads the body, the second hands the body to [set]. *)
Definition on_response (crsUri : string) (answer : fetch_outcome) (c : cache) : run :=
  match answer with
  | Failed e => Done (Rejects e) c
  | Responded response =>
      if negb (ok response) then
        Done (Rejects (Error ("HTTP response code: " ++ pretty (status response)))) c
      else
        match text response with
        | inl e => Done (Rejects e) c
        | inr proj4string =>
            let options :=
              {| opt_reverseAxes := has_key crsUri needsAxesReordering |} in
            match set crsUri (Str proj4string) options c with
            | (inr v, c') => Done (Resolves v) c'
            | (inl e, c') => Done (Rejects e) c'
            end
        end
  end.

Definition load (crsUri : string) (c : cache) : run :=
  match c !! crsUri with
  | Some v => Done (Resolves v) c
  | None =>
      match crsUriToEPSG crsUri with
      | inl e => Done (Throws e) c
      | inr epsg =>
          let url := registry_url epsg in
          Fetch url c (on_response crsUri)
      end
  end.

(** The storing callback of [load] in the earlier revision of the module,
    which parses the body itself instead of calling [set]. *)
Definition load_v1_store (crsUri proj4string : string) : M value :=
  match proj4 proj4string with
  | None => throw (Error ("Unsupported proj4 string: " ++ proj4string))
  | Some proj4obj =>
      let proj4obj :=
        if has_key crsUri needsLatLonReordering then flipLatLon proj4obj
        else proj4obj in
      store crsUri (Obj proj4obj);;
      get crsUri
  end.

End WithProj4.

(** ** Running against a network

    The network answers a request for [url] knowing the requests made so far,
    so that a repeated request may be answered differently. *)
Definition network := list string -> string -> fetch_outcome.

(** Runs [r] to its end with nothing else touching the cache in between;
    returns the outcome, the final cache and the log of requests. *)
Fixpoint exec (net : network) (log : list string) (r : run)
  : outcome * cache * list string :=
  match r with
  | Done o c => (o, c, log)
  | Fetch url c k => exec net (log ++ [url]) (k (net log url) c)
  end.

(** [n] calls of [load crsUri], one after the other. *)
Fixpoint load_repeatedly (proj4 : string -> option Projection) (net : network)
    (crsUri : string) (n : nat) (log : list string) (c : cache)
  : list outcome * cache * list string :=
  match n with
  | O => ([], c, log)
  | S n' =>
      let '(o, c1, log1) := exec net log (load proj4 crsUri c) in
      let '(os, c2, log2) := load_repeatedly proj4 net crsUri n' log1 c1 in
      (o :: os, c2, log2)
  end.

(** A run is all-or-nothing for [crsUri] from the cache [c0]: when it ends
    in success the cache is [c0] with the result stored under [crsUri], when
    it ends in failure the cache is [c0]; a suspended run has not touched the
    cache, and is all-or-nothing from whatever cache it is resumed on. *)
Fixpoint all_or_nothing (crsUri : string) (c0 : cache) (r : run) : Prop :=
  match r with
  | Done (Resolves v) c => c = <[crsUri := v]> c0
  | Done _ c => c = c0
  | Fetch _ c k => c = c0 /\ forall answer c1, all_or_nothing crsUri c1 (k answer c1)
  end.

(** ** Sample data

    Concrete projections, definitions and responses on which the operations
    are evaluated. *)

(** The projection that returns its argument, both ways. *)
Definition identity_projection : Projection := {|
  forward := fun pos => pos;
  inverse := fun pos => pos
|}.

(** A longitude/latitude projection whose [inverse] is meaningful up to
    latitude 90 only and clamps what lies beyond. *)
Definition clamped_projection : Projection := {|
  forward := fun pos => pos;
  inverse := fun pos =>
    match pos with
    | [Num x; Num y] => if (y <=? 90)%float then pos else [Num x; Num 90%float]
    | _ => pos
    end
|}.

(** A construction facility that understands the WGS84 definition only. *)
Definition proj4_wgs84_only (def : string) : option Projection :=
  if String.eqb def "+proj=longlat +datum=WGS84 +no_defs"
  then Some identity_projection else None.

(** The URI and the PROJ.4 definition of the British National Grid, as in
    the documentation of [set] and in its test. *)
Definition BNG_URI : string := "http://www.opengis.net/def/crs/EPSG/0/27700".

Definition BNG_DEF : string :=
  "+proj=tmerc +lat_0=49 +lon_0=-2 +k=0.9996012717 +x_0=400000 +y_0=-100000 " ++
  "+ellps=airy +towgs84=446.448,-125.157,542.06,0.15,0.247,0.842,-20.489 +units=m +no_defs".

(** A registry that answers every request with 404 and an empty body. *)
Definition net_404 : network :=
  fun _ _ => Responded {| status := 404; text := inr "" |}.

(** ** The resolver of the earlier revision

    The earlier [load] differs from the current one in its second promise
    callback, which is [load_v1_store] instead of a call of [set]. *)

Definition on_response_v1 (proj4 : string -> option Projection)
    (crsUri : string) (answer : fetch_outcome) (c : cache) : run :=
  match answer with
  | Failed e => Done (Rejects e) c
  | Responded response =>
      if negb (ok response) then
        Done (Rejects (Error ("HTTP response code: " ++ pretty (status response)))) c
      else
        match text response with
        | inl e => Done (Rejects e) c
        | inr proj4string =>
            match load_v1_store proj4 crsUri proj4string c with
            | (inr v, c') => Done (Resolves v) c'
            | (inl e, c') => Done (Rejects e) c'
            end
        end
  end.

Definition load_v1 (proj4 : string -> option Projection)
    (crsUri : string) (c : cache) : run :=
  match c !! crsUri with
  | Some v => Done (Resolves v) c
  | None =>
      match crsUriToEPSG crsUri with
      | inl e => Done (Throws e) c
      | inr epsg =>
          let url := registry_url epsg in
          Fetch url c (on_response_v1 proj4 crsUri)
      end
  end.

(** ** More sample data *)

(** A construction facility that understands the British National Grid
    definition only. *)
Definition proj4_bng_only (def : string) : option Projection :=
  if String.eqb def BNG_DEF then Some clamped_projection else None.

(** A registry that answers every request with 200 and the British National
    Grid definition. *)
Definition net_bng : network :=
  fun _ _ => Responded {| status := 200; text := inr BNG_DEF |}.

(** A registry that answers every request with 200 and a body that is not a
    definition. *)
Definition net_garbage : network :=
  fun _ _ => Responded {| status := 200; text := inr "<html>" |}.

(** A network that is down. *)
Definition net_down : network :=
  fun _ _ => Failed (TypeError "Network request failed").

(** ** Overlapping calls

    Two calls made back to back on the cache [c], the second before the
    promise of the first has settled: each call runs its synchronous part,
    then the callbacks of the first run to their end, then those of the
    second, on the cache the first has left.  Returns both outcomes, the
    final cache and the log of requests. *)
Definition exec_overlapping (net : network) (log : list string) (c : cache)
    (first second : cache -> run)
  : outcome * outcome * cache * list string :=
  match first c with
  | Done o1 c1 =>
      let '(o2, c2, log2) := exec net log (second c1) in
      (o1, o2, c2, log2)
  | Fetch url1 c1 k1 =>
      let answer1 := net log url1 in
      let log1 := (log ++ [url1])%list in
      match second c1 with
      | Done o2 c2 =>
          let '(o1, c3, log3) := exec net log1 (k1 answer1 c2) in
          (o1, o2, c3, log3)
      | Fetch url2 c2 k2 =>
          let answer2 := net log1 url2 in
          let log2 := (log1 ++ [url2])%list in
          let '(o1, c3, log3) := exec net log2 (k1 answer1 c2) in
          let '(o2, c4, log4) := exec net log3 (k2 answer2 c3) in
          (o1, o2, c4, log4)
      end
  end.

(** A registry that answers the first request with the British National
    Grid definition and every later one with the WGS84 definition. *)
Definition net_changing : network :=
  fun log _ =>
    match log with
    | [] => Responded {| status := 200; text := inr BNG_DEF |}
    | _ => Responded {| status := 200;
                        text := inr "+proj=longlat +datum=WGS84 +no_defs" |}
    end.

(** A construction facility that understands both sample definitions. *)
Definition proj4_both (def : string) : option Projection :=
  if String.eqb def BNG_DEF then Some clamped_projection
  else proj4_wgs84_only def.

(** * Properties *)

(** ** Strings *)

Lemma prefix_append (p c : string) : String.prefix p (p ++ c) = true.
Proof.
  induction p as [|a p IH]; simpl.
  - destruct c; reflexivity.
  - destruct (Ascii.ascii_dec a a) as [_|Hne]; [exact IH | congruence].
Qed.

Lemma prefix_split (p s : string) :
  String.prefix p s = true -> exists c, s = p ++ c.
Proof.
  revert s. induction p as [|a p IH]; intros s H.
  - exists s. reflexivity.
  - destruct s as [|b s]; [discriminate H|]. simpl in H.
    destruct (Ascii.ascii_dec a b) as [->|_]; [|discriminate H].
    destruct (IH s H) as [c ->]. exists c. reflexivity.
Qed.

(** [s.indexOf(p) === 0] says that [s] starts with [p]. *)
Lemma indexOf_zero (s p : string) :
  (indexOf s p =? 0)%Z = String.prefix p s.
Proof.
  unfold indexOf. destruct s as [|b s].
  - destruct p; reflexivity.
  - cbn [String.index]. destruct (String.prefix p (String b s)); [reflexivity|].
    destruct (String.index 0 p s); [|reflexivity].
    apply Z.eqb_neq. lia.
Qed.

Lemma substring_all (s : string) : String.substring 0 (String.length s) s = s.
Proof. induction s as [|a s IH]; simpl; [reflexivity | by rewrite IH]. Qed.

Lemma length_append (p c : string) :
  String.length (p ++ c) = String.length p + String.length c.
Proof. induction p as [|a p IH]; simpl; [reflexivity | by rewrite IH]. Qed.

Lemma substr_append (p c : string) : substr (p ++ c) (String.length p) = c.
Proof.
  unfold substr. rewrite length_append.
  replace (String.length p + String.length c - String.length p)
    with (String.length c) by lia.
  induction p as [|a p IH]; simpl; [apply substring_all | exact IH].
Qed.

Lemma crsUriToEPSG_prefixed (code : string) :
  crsUriToEPSG (EPSG_PREFIX ++ code) = inr code.
Proof.
  unfold crsUriToEPSG.
  rewrite indexOf_zero, prefix_append, substr_append. reflexivity.
Qed.

Lemma crsUriToEPSG_other (uri : string) :
  String.prefix EPSG_PREFIX uri = false ->
  crsUriToEPSG uri = inl (Error ("Unsupported CRS URI: " ++ uri)).
Proof. intros H. unfold crsUriToEPSG. rewrite indexOf_zero, H. reflexivity. Qed.

(** ** The URI parser *)

(** C3: [crsUriToEPSG] returns what follows the EPSG prefix when the URI
    starts with it, and in every other case fails with the error whose
    message quotes the URI; the CRS84 literal is such a case. *)
Theorem crsUriToEPSG_spec (uri : string) :
  (forall code, uri = EPSG_PREFIX ++ code -> crsUriToEPSG uri = inr code) /\
  ((forall code, uri <> EPSG_PREFIX ++ code) ->
     crsUriToEPSG uri = inl (Error ("Unsupported CRS URI: " ++ uri))) /\
  crsUriToEPSG (OGC_PREFIX ++ "1.3/CRS84") =
    inl (Error "Unsupported CRS URI: http://www.opengis.net/def/crs/OGC/1.3/CRS84").
Proof.
  split; [|split].
  - intros code ->. apply crsUriToEPSG_prefixed.
  - intros Hno. apply crsUriToEPSG_other.
    destruct (String.prefix EPSG_PREFIX uri) eqn:E; [|reflexivity].
    destruct (prefix_split _ _ E) as [code Hc]. destruct (Hno code Hc).
  - reflexivity.
Qed.

Lemma crsUriToEPSG_spec_witness :
  crsUriToEPSG "http://www.opengis.net/def/crs/EPSG/0/27700" = inr "27700" /\
  crsUriToEPSG "urn:ogc:def:crs:EPSG::27700" =
    inl (Error "Unsupported CRS URI: urn:ogc:def:crs:EPSG::27700").
Proof.
  split.
  - apply (proj1 (crsUriToEPSG_spec _) "27700"). reflexivity.
  - apply (proj1 (proj2 (crsUriToEPSG_spec "urn:ogc:def:crs:EPSG::27700"))).
    intros code H. discriminate H.
Defined.

(** ** The axis corrector *)

Lemma reverse_pair (a b : elem) : reverse [a; b] = [b; a].
Proof. reflexivity. Qed.

Lemma reverse_involutive (pos : position) : reverse (reverse pos) = pos.
Proof. apply rev_involutive. Qed.

(** C2: on a coordinate pair, the wrapped [forward] is the reversal of the
    underlying [forward] (the two components swapped when that is a pair),
    and the wrapped [inverse] is the underlying [inverse] of the reversed
    pair; this holds for [reverseAxes] and for [flipLatLon]. *)
Theorem reverseAxes_spec (P : Projection) (a b : elem) :
  (forward (reverseAxes P) [a; b] = reverse (forward P [a; b]) /\
   inverse (reverseAxes P) [a; b] = inverse P (reverse [a; b])) /\
  (forward (flipLatLon P) [a; b] = reverse (forward P [a; b]) /\
   inverse (flipLatLon P) [a; b] = inverse P (reverse [a; b])) /\
  (forall x y, forward P [a; b] = [x; y] ->
     forward (reverseAxes P) [a; b] = [y; x] /\
     forward (flipLatLon P) [a; b] = [y; x]).
Proof.
  repeat split; try reflexivity; simpl; rewrite H; reflexivity.
Qed.

Lemma reverseAxes_spec_witness :
  forward (reverseAxes identity_projection) [Num (-71)%float; Num 41%float]
    = [Num 41%float; Num (-71)%float] /\
  forward (flipLatLon identity_projection) [Num (-71)%float; Num 41%float]
    = [Num 41%float; Num (-71)%float].
Proof.
  apply (proj2 (proj2 (reverseAxes_spec identity_projection _ _))).
  reflexivity.
Defined.

(** C9: wrapping twice gives back the behaviour of the projection on every
    coordinate pair, for [forward] and for [inverse]. *)
Theorem reverseAxes_involution (P : Projection) (a b : elem) :
  forward (reverseAxes (reverseAxes P)) [a; b] = forward P [a; b] /\
  inverse (reverseAxes (reverseAxes P)) [a; b] = inverse P [a; b].
Proof.
  split; simpl.
  - apply reverse_involutive.
  - reflexivity.
Qed.

(** C10, as stated, fails in its second half: the forward-after-inverse
    round trip is not preserved point by point.  [clamped_projection]
    round-trips the pair (100, 50), its wrapped version
    does not, because the wrapped [inverse] consults the underlying one at
    (50, 100). *)
Lemma round_trip_forward_inverse_not_pointwise :
  let P := clamped_projection in
  let pos := [Num 100%float; Num 50%float] in
  forward P (inverse P pos) = pos /\
  forward (reverseAxes P) (inverse (reverseAxes P) pos) <> pos.
Proof.
  split; [reflexivity|].
  intros H.
  apply (f_equal (fun l => match l with
                           | Num x :: _ => PrimFloat.eqb x 100%float
                           | _ => false
                           end)) in H.
  vm_compute in H. discriminate H.
Qed.

(** C10 (amended): when [forward] of the projection returns a pair at [pos]
    and the projection round-trips [pos] inverse-after-forward, so does the
    wrapped projection; and the wrapped projection round-trips [pos]
    forward-after-inverse when the projection round-trips the reversed
    pair. *)
Theorem reverseAxes_round_trip (P : Projection) (a b : elem) :
  ((exists x y, forward P [a; b] = [x; y]) ->
   inverse P (forward P [a; b]) = [a; b] ->
   inverse (reverseAxes P) (forward (reverseAxes P) [a; b]) = [a; b]) /\
  (forward P (inverse P [b; a]) = [b; a] ->
   forward (reverseAxes P) (inverse (reverseAxes P) [a; b]) = [a; b]).
Proof.
  split.
  - intros (x & y & Hxy) Hrt. simpl. rewrite Hxy in *. exact Hrt.
  - intros Hrt. unfold reverseAxes, at_index. simpl. rewrite Hrt. reflexivity.
Qed.

Lemma reverseAxes_round_trip_witness :
  let P := clamped_projection in
  inverse (reverseAxes P) (forward (reverseAxes P) [Num 100%float; Num 50%float])
    = [Num 100%float; Num 50%float] /\
  forward (reverseAxes P) (inverse (reverseAxes P) [Num 50%float; Num 100%float])
    = [Num 50%float; Num 100%float].
Proof.
  split.
  - apply (proj1 (reverseAxes_round_trip clamped_projection _ _)).
    + exists (Num 100%float), (Num 50%float). reflexivity.
    + reflexivity.
  - apply (proj2 (reverseAxes_round_trip clamped_projection _ _)). reflexivity.
Defined.

(** ** The cache *)

Lemma set_scope_unbound :
  ~ In "proj4string" set_scope /\ ~ In "proj4obj" set_scope.
Proof. split; intros H; simpl in H; intuition discriminate. Qed.

Lemma truthy_Str (s : string) : s <> "" -> truthy (Str s) = true.
Proof. destruct s; [congruence | reflexivity]. Qed.

(** [set] with an object: the object is stored as it is. *)
Lemma set_Obj proj4 (crsUri : string) (p : Projection) (options : Options) (c : cache) :
  crsUri <> "" ->
  set proj4 crsUri (Obj p) options c = (inr (Obj p), <[crsUri := Obj p]> c).
Proof. intros H. unfold set. rewrite (truthy_Str _ H). reflexivity. Qed.

(** Whatever its arguments, [set] stores exactly what it returns, and stores
    nothing when it throws. *)
Lemma set_all_or_nothing proj4 (crsUri : string) (v : value) (options : Options)
    (c : cache) :
  match set proj4 crsUri v options c with
  | (inr v', c') => c' = <[crsUri := v']> c
  | (inl _, c') => c' = c
  end.
Proof.
  unfold set.
  destruct (negb (truthy (Str crsUri)) || negb (truthy v)); [reflexivity|].
  destruct v; reflexivity.
Qed.

(** C1: with a non-empty URI and a non-empty definition string, [set]
    throws a ReferenceError for [proj4string] and leaves the cache as it
    was, whatever the construction facility would have answered and whatever
    the options: nothing is parsed, wrapped, stored or returned. *)
Theorem set_definition_string_throws proj4 (crsUri s : string)
    (options : Options) (c : cache) :
  crsUri <> "" -> s <> "" ->
  set proj4 crsUri (Str s) options c = (inl (ReferenceError "proj4string"), c).
Proof.
  intros Hu Hs. unfold set. rewrite (truthy_Str _ Hu), (truthy_Str _ Hs).
  reflexivity.
Qed.

(** The call of the documentation's example and of the test of [set]. *)
Lemma set_definition_string_throws_witness :
  set proj4_wgs84_only BNG_URI (Str BNG_DEF) default_options ∅
    = (inl (ReferenceError "proj4string"), ∅).
Proof.
  apply (set_definition_string_throws proj4_wgs84_only BNG_URI BNG_DEF);
    discriminate.
Defined.

(** The storing callback of the earlier [load] does parse and store. *)
Lemma load_v1_store_parsed proj4 (crsUri def : string) (p : Projection) (c : cache) :
  proj4 def = Some p ->
  has_key crsUri needsLatLonReordering = false ->
  load_v1_store proj4 crsUri def c = (inr (Obj p), <[crsUri := Obj p]> c).
Proof.
  intros Hp Hk. unfold load_v1_store. rewrite Hp, Hk.
  unfold get, read, store, mbind, M_bind. simpl.
  rewrite lookup_insert_eq. reflexivity.
Qed.

(** C8: [set] with a ready-made projection object and a non-empty URI
    stores that very object under the URI and returns it, whatever
    [options.reverseAxes] says; [get] then returns it. *)
Theorem set_projection_object proj4 (crsUri : string) (p : Projection)
    (options : Options) (c : cache) :
  crsUri <> "" ->
  exists c',
    set proj4 crsUri (Obj p) options c = (inr (Obj p), c') /\
    c' = <[crsUri := Obj p]> c /\
    get crsUri c' = (inr (Obj p), c').
Proof.
  intros H. exists (<[crsUri := Obj p]> c). split; [|split].
  - apply set_Obj, H.
  - reflexivity.
  - unfold get, read. rewrite lookup_insert_eq. reflexivity.
Qed.

Lemma set_projection_object_witness :
  exists c',
    set proj4_wgs84_only BNG_URI (Obj clamped_projection)
        {| opt_reverseAxes := true |} ∅ = (inr (Obj clamped_projection), c') /\
    c' = <[BNG_URI := Obj clamped_projection]> ∅ /\
    get BNG_URI c' = (inr (Obj clamped_projection), c').
Proof.
  apply (set_projection_object proj4_wgs84_only BNG_URI clamped_projection).
  discriminate.
Defined.

(** C6: when the construction facility turns the WGS84 definition into a
    projection that is the identity on coordinate pairs, initialisation
    succeeds, and the entry it stores under the EPSG 4979 URI maps
    (lon, lat) forward to (lat, lon) and (lat, lon) back to (lon, lat). *)
Theorem preseeded_EPSG4979 proj4 (LONLAT : Projection) :
  proj4 "+proj=longlat +datum=WGS84 +no_defs" = Some LONLAT ->
  (forall x y, forward LONLAT [Num x; Num y] = [Num x; Num y]) ->
  (forall x y, inverse LONLAT [Num x; Num y] = [Num x; Num y]) ->
  exists (c : cache) (P : Projection),
    initialise proj4 ∅ = (inr tt, c) /\
    c !! "http://www.opengis.net/def/crs/EPSG/0/4979" = Some (Obj P) /\
    forall lon lat,
      forward P [Num lon; Num lat] = [Num lat; Num lon] /\
      inverse P [Num lat; Num lon] = [Num lon; Num lat].
Proof.
  intros Hp Hf Hi.
  eexists _, (reverseAxes LONLAT). split; [|split].
  - unfold initialise, LONLAT_DEF. rewrite Hp.
    unfold mbind, M_bind. rewrite set_Obj by discriminate.
    rewrite set_Obj by discriminate. reflexivity.
  - apply lookup_insert_eq.
  - intros lon lat. split; simpl.
    + rewrite Hf. reflexivity.
    + apply Hi.
Qed.

Lemma preseeded_EPSG4979_witness :
  exists (c : cache) (P : Projection),
    initialise proj4_wgs84_only ∅ = (inr tt, c) /\
    c !! "http://www.opengis.net/def/crs/EPSG/0/4979" = Some (Obj P) /\
    forall lon lat,
      forward P [Num lon; Num lat] = [Num lat; Num lon] /\
      inverse P [Num lat; Num lon] = [Num lon; Num lat].
Proof.
  apply (preseeded_EPSG4979 proj4_wgs84_only identity_projection).
  - reflexivity.
  - intros x y. reflexivity.
  - intros x y. reflexivity.
Defined.

(** ** The resolver *)

Lemma ok_false (r : response) :
  (status r < 200 \/ 300 <= status r)%N -> ok r = false.
Proof.
  intros H. unfold ok. apply andb_false_iff.
  destruct H as [H|H]; [left; apply N.leb_gt | right; apply N.ltb_ge]; exact H.
Qed.

Lemma load_hit proj4 (crsUri : string) (v : value) (c : cache) :
  c !! crsUri = Some v -> load proj4 crsUri c = Done (Resolves v) c.
Proof. intros H. unfold load. rewrite H. reflexivity. Qed.

Lemma load_miss proj4 (code : string) (c : cache) :
  c !! (EPSG_PREFIX ++ code) = None ->
  load proj4 (EPSG_PREFIX ++ code) c =
    Fetch (registry_url code) c (on_response proj4 (EPSG_PREFIX ++ code)).
Proof.
  intros H. unfold load. rewrite H, crsUriToEPSG_prefixed. reflexivity.
Qed.

(** Resumed on any cache, the promise callbacks either store their result
    or leave that cache alone. *)
Lemma on_response_all_or_nothing proj4 (crsUri : string)
    (answer : fetch_outcome) (c : cache) :
  all_or_nothing crsUri c (on_response proj4 crsUri answer c).
Proof.
  unfold on_response. destruct answer as [e|r]; [reflexivity|].
  destruct (negb (ok r)); [reflexivity|].
  destruct (text r) as [e|proj4string]; [reflexivity|].
  pose proof (set_all_or_nothing proj4 crsUri (Str proj4string)
    {| opt_reverseAxes := has_key crsUri needsAxesReordering |} c) as H.
  destruct (set _ _ _ _ c) as [[e|v] c']; exact H.
Qed.

Lemma load_is_all_or_nothing proj4 (crsUri : string) (c : cache) :
  all_or_nothing crsUri c (load proj4 crsUri c).
Proof.
  unfold load. destruct (c !! crsUri) as [v|] eqn:Hc.
  - simpl. symmetry. apply insert_id, Hc.
  - destruct (crsUriToEPSG crsUri) as [e|epsg]; [reflexivity|].
    split; [reflexivity|]. intros answer c1.
    apply on_response_all_or_nothing.
Qed.

(** An all-or-nothing run, left alone until it ends, ends all-or-nothing. *)
Lemma exec_all_or_nothing (net : network) (crsUri : string) (r : run) :
  forall (log : list string) (c : cache),
    all_or_nothing crsUri c r ->
    match exec net log r with
    | (Resolves v, c', _) => c' = <[crsUri := v]> c /\ c' !! crsUri = Some v
    | (Throws _, c', _) | (Rejects _, c', _) => c' = c
    end.
Proof.
  induction r as [o c0|url c0 k IH]; intros log c H.
  - destruct o as [e|v|e]; simpl in *; subst; [reflexivity| |reflexivity].
    split; [reflexivity | apply lookup_insert_eq].
  - destruct H as [-> Hk]. simpl. apply IH, Hk.
Qed.

(** C4: for a URI the cache holds, [load] is over at once, fulfilled with
    the cached value, without a [Fetch] and with the cache as it was; any
    number of successive calls gives that same value each time and adds
    nothing to the log of requests. *)
Theorem load_cached proj4 (crsUri : string) (v : value) (c : cache) :
  c !! crsUri = Some v ->
  load proj4 crsUri c = Done (Resolves v) c /\
  forall (net : network) (log : list string) (n : nat),
    load_repeatedly proj4 net crsUri n log c = (replicate n (Resolves v), c, log).
Proof.
  intros H. split; [apply load_hit, H|].
  intros net log n. induction n as [|n IH]; simpl.
  - reflexivity.
  - rewrite (load_hit _ _ _ _ H). simpl. rewrite IH. reflexivity.
Qed.

Lemma load_cached_witness :
  let c : cache := {[ BNG_URI := Obj clamped_projection ]} in
  load proj4_wgs84_only BNG_URI c = Done (Resolves (Obj clamped_projection)) c /\
  forall (net : network) (log : list string) (n : nat),
    load_repeatedly proj4_wgs84_only net BNG_URI n log c
      = (replicate n (Resolves (Obj clamped_projection)), c, log).
Proof.
  apply (load_cached proj4_wgs84_only BNG_URI (Obj clamped_projection)).
  apply lookup_singleton_eq.
Defined.

(** C5: a call of [load] is all-or-nothing.  Run to its end against any
    network, it either succeeds, and the final cache is the initial one with
    the returned value under the URI, or fails (thrown or rejected), and the
    final cache is the initial one; the same holds of the callbacks on
    whatever cache they are resumed on. *)
Theorem load_all_or_nothing proj4 (crsUri : string) (c : cache) :
  all_or_nothing crsUri c (load proj4 crsUri c) /\
  forall (net : network) (log : list string),
    match exec net log (load proj4 crsUri c) with
    | (Resolves v, c', _) => c' = <[crsUri := v]> c /\ c' !! crsUri = Some v
    | (Throws _, c', _) | (Rejects _, c', _) => c' = c
    end.
Proof.
  split; [apply load_is_all_or_nothing|].
  intros net log. apply exec_all_or_nothing, load_is_all_or_nothing.
Qed.

(** C7: for an uncached URI made of the EPSG prefix and a code, when the
    registry answers the request with a status outside 200..299, [load] is
    rejected with the error whose message carries that status, the cache is
    as it was, and the log of requests has grown by that one request. *)
Theorem load_http_error proj4 (net : network) (log : list string)
    (code : string) (c : cache) (r : response) :
  c !! (EPSG_PREFIX ++ code) = None ->
  net log (registry_url code) = Responded r ->
  (status r < 200 \/ 300 <= status r)%N ->
  exec net log (load proj4 (EPSG_PREFIX ++ code) c) =
    (Rejects (Error ("HTTP response code: " ++ pretty (status r))), c,
     (log ++ [registry_url code])%list).
Proof.
  intros Hc Hnet Hst. rewrite (load_miss _ _ _ Hc). simpl.
  rewrite Hnet. simpl. rewrite (ok_false _ Hst). reflexivity.
Qed.

Lemma load_http_error_witness :
  exec net_404 [] (load proj4_wgs84_only
                     "http://www.opengis.net/def/crs/EPSG/0/99999999" ∅) =
    (Rejects (Error "HTTP response code: 404"), ∅,
     ["http://epsg.io/99999999.proj4"]).
Proof.
  apply (load_http_error proj4_wgs84_only net_404 [] "99999999" ∅
           {| status := 404; text := inr "" |}).
  - apply lookup_empty.
  - reflexivity.
  - right. simpl. lia.
Defined.

(** * Further properties *)

(** ** [set] and [get] *)

(** X1: [set] refuses an empty URI and a missing or empty second argument with
    the error 'crsUri and proj cannot be empty', and stores nothing. *)
Theorem set_empty_argument proj4 (crsUri : string) (proj : value)
    (options : Options) (c : cache) :
  crsUri = "" \/ truthy proj = false ->
  set proj4 crsUri proj options c
    = (inl (Error "crsUri and proj cannot be empty"), c).
Proof.
  intros [->|H]; unfold set.
  - reflexivity.
  - rewrite H, orb_true_r. reflexivity.
Qed.

Lemma set_empty_argument_witness :
  set proj4_wgs84_only "" (Obj identity_projection) default_options ∅
    = (inl (Error "crsUri and proj cannot be empty"), ∅) /\
  set proj4_wgs84_only BNG_URI Null default_options ∅
    = (inl (Error "crsUri and proj cannot be empty"), ∅) /\
  set proj4_wgs84_only BNG_URI (Str "") default_options ∅
    = (inl (Error "crsUri and proj cannot be empty"), ∅).
Proof.
  split; [|split]; apply set_empty_argument.
  - left. reflexivity.
  - right. reflexivity.
  - right. reflexivity.
Defined.



(** X3: storing two objects under the same URI one after the other leaves the
    cache as if only the second had been stored, and [get] returns the
    second. *)
Theorem set_twice_last_wins proj4 (crsUri : string) (p q : Projection)
    (o1 o2 : Options) (c : cache) :
  crsUri <> "" ->
  exists c1 c2,
    set proj4 crsUri (Obj p) o1 c = (inr (Obj p), c1) /\
    set proj4 crsUri (Obj q) o2 c1 = (inr (Obj q), c2) /\
    c2 = <[crsUri := Obj q]> c /\
    get crsUri c2 = (inr (Obj q), c2).
Proof.
  intros H. exists (<[crsUri := Obj p]> c), (<[crsUri := Obj q]> c).
  split; [|split; [|split]].
  - apply set_Obj, H.
  - rewrite set_Obj by exact H. rewrite insert_insert_eq. reflexivity.
  - reflexivity.
  - unfold get, read. rewrite lookup_insert_eq. reflexivity.
Qed.

Lemma set_twice_last_wins_witness :
  exists c1 c2,
    set proj4_wgs84_only BNG_URI (Obj identity_projection) default_options ∅
      = (inr (Obj identity_projection), c1) /\
    set proj4_wgs84_only BNG_URI (Obj clamped_projection) default_options c1
      = (inr (Obj clamped_projection), c2) /\
    c2 = <[BNG_URI := Obj clamped_projection]> ∅ /\
    get BNG_URI c2 = (inr (Obj clamped_projection), c2).
Proof.
  apply (set_twice_last_wins proj4_wgs84_only BNG_URI). discriminate.
Defined.

(** X4: what [set] has stored, [load] resolves with at once and without a
    request, whether or not the URI has the EPSG prefix. *)
Theorem set_then_load proj4 (net : network) (log : list string)
    (crsUri : string) (p : Projection) (options : Options) (c : cache) :
  crsUri <> "" ->
  exists c',
    set proj4 crsUri (Obj p) options c = (inr (Obj p), c') /\
    load proj4 crsUri c' = Done (Resolves (Obj p)) c' /\
    exec net log (load proj4 crsUri c') = (Resolves (Obj p), c', log).
Proof.
  intros H. exists (<[crsUri := Obj p]> c).
  assert (Hl : load proj4 crsUri (<[crsUri := Obj p]> c)
               = Done (Resolves (Obj p)) (<[crsUri := Obj p]> c))
    by apply load_hit, lookup_insert_eq.
  split; [apply set_Obj, H|]. split; [exact Hl|]. rewrite Hl. reflexivity.
Qed.

Lemma set_then_load_witness :
  exists c',
    set proj4_wgs84_only "urn:ogc:def:crs:EPSG::27700" (Obj clamped_projection)
        default_options ∅ = (inr (Obj clamped_projection), c') /\
    load proj4_wgs84_only "urn:ogc:def:crs:EPSG::27700" c'
      = Done (Resolves (Obj clamped_projection)) c' /\
    exec net_down [] (load proj4_wgs84_only "urn:ogc:def:crs:EPSG::27700" c')
      = (Resolves (Obj clamped_projection), c', []).
Proof.
  apply (set_then_load proj4_wgs84_only net_down []
           "urn:ogc:def:crs:EPSG::27700").
  discriminate.
Defined.

(** ** Initialisation *)

(** X5: when the construction facility understands the WGS84 definition,
    initialisation leaves exactly two entries: the constructed projection
    itself under the CRS84 URI and its wrapped version under the EPSG 4979
    URI.  In particular nothing is stored for EPSG 4326. *)
Theorem initial_cache proj4 (LONLAT : Projection) :
  proj4 "+proj=longlat +datum=WGS84 +no_defs" = Some LONLAT ->
  exists c : cache,
    initialise proj4 ∅ = (inr tt, c) /\
    c !! "http://www.opengis.net/def/crs/OGC/1.3/CRS84" = Some (Obj LONLAT) /\
    c !! "http://www.opengis.net/def/crs/EPSG/0/4979"
      = Some (Obj (reverseAxes LONLAT)) /\
    dom c = ({[ "http://www.opengis.net/def/crs/OGC/1.3/CRS84";
                "http://www.opengis.net/def/crs/EPSG/0/4979" ]} : gset string) /\
    c !! "http://www.opengis.net/def/crs/EPSG/0/4326" = None.
Proof.
  intros Hp. eexists. split; [|split; [|split; [|split]]].
  - unfold initialise, LONLAT_DEF. rewrite Hp.
    unfold mbind, M_bind. rewrite set_Obj by discriminate.
    rewrite set_Obj by discriminate. reflexivity.
  - rewrite lookup_insert_ne by discriminate. apply lookup_insert_eq.
  - apply lookup_insert_eq.
  - rewrite !dom_insert_L, dom_empty_L. set_solver.
  - rewrite !lookup_insert_ne by discriminate. apply lookup_empty.
Qed.

Lemma initial_cache_witness :
  exists c : cache,
    initialise proj4_wgs84_only ∅ = (inr tt, c) /\
    c !! "http://www.opengis.net/def/crs/OGC/1.3/CRS84"
      = Some (Obj identity_projection) /\
    c !! "http://www.opengis.net/def/crs/EPSG/0/4979"
      = Some (Obj (reverseAxes identity_projection)) /\
    dom c = ({[ "http://www.opengis.net/def/crs/OGC/1.3/CRS84";
                "http://www.opengis.net/def/crs/EPSG/0/4979" ]} : gset string) /\
    c !! "http://www.opengis.net/def/crs/EPSG/0/4326" = None.
Proof.
  apply (initial_cache proj4_wgs84_only identity_projection). reflexivity.
Defined.

(** X6: On the initialised cache, [load] of the CRS84 URI and of the EPSG 4979
    URI resolves with the built-in entry and makes no request; on an empty
    cache the CRS84 URI is refused by the URI parser. *)
Theorem load_built_in proj4 (LONLAT : Projection) :
  proj4 "+proj=longlat +datum=WGS84 +no_defs" = Some LONLAT ->
  exists c : cache,
    initialise proj4 ∅ = (inr tt, c) /\
    (forall (net : network) (log : list string),
       exec net log (load proj4 "http://www.opengis.net/def/crs/OGC/1.3/CRS84" c)
         = (Resolves (Obj LONLAT), c, log) /\
       exec net log (load proj4 "http://www.opengis.net/def/crs/EPSG/0/4979" c)
         = (Resolves (Obj (reverseAxes LONLAT)), c, log)) /\
    load proj4 "http://www.opengis.net/def/crs/OGC/1.3/CRS84" ∅
      = Done (Throws (Error
          "Unsupported CRS URI: http://www.opengis.net/def/crs/OGC/1.3/CRS84")) ∅.
Proof.
  intros Hp. eexists. split; [|split].
  - unfold initialise, LONLAT_DEF. rewrite Hp.
    unfold mbind, M_bind. rewrite set_Obj by discriminate.
    rewrite set_Obj by discriminate. reflexivity.
  - intros net log. split.
    + erewrite load_hit; [reflexivity|].
      rewrite lookup_insert_ne by discriminate. apply lookup_insert_eq.
    + erewrite load_hit; [reflexivity|]. apply lookup_insert_eq.
  - unfold load. rewrite lookup_empty. reflexivity.
Qed.

Lemma load_built_in_witness :
  exists c : cache,
    initialise proj4_wgs84_only ∅ = (inr tt, c) /\
    (forall (net : network) (log : list string),
       exec net log (load proj4_wgs84_only
                       "http://www.opengis.net/def/crs/OGC/1.3/CRS84" c)
         = (Resolves (Obj identity_projection), c, log) /\
       exec net log (load proj4_wgs84_only
                       "http://www.opengis.net/def/crs/EPSG/0/4979" c)
         = (Resolves (Obj (reverseAxes identity_projection)), c, log)) /\
    load proj4_wgs84_only "http://www.opengis.net/def/crs/OGC/1.3/CRS84" ∅
      = Done (Throws (Error
          "Unsupported CRS URI: http://www.opengis.net/def/crs/OGC/1.3/CRS84")) ∅.
Proof.
  apply (load_built_in proj4_wgs84_only identity_projection). reflexivity.
Defined.

(** ** The URI parser and the registry URL *)

Lemma append_cancel_l (p a b : string) : p ++ a = p ++ b -> a = b.
Proof.
  induction p as [|x p IH]; simpl; intros H; [exact H|].
  apply IH. injection H as H. exact H.
Qed.

Lemma append_cancel_r (s a : string) :
  forall b, a ++ s = b ++ s -> a = b.
Proof.
  induction a as [|x a IH]; intros [|y b] H.
  - reflexivity.
  - apply (f_equal String.length) in H.
    rewrite !length_append in H. simpl in H. lia.
  - apply (f_equal String.length) in H.
    rewrite !length_append in H. simpl in H. lia.
  - simpl in H. injection H as -> H. f_equal. apply IH, H.
Qed.

Lemma registry_url_inj (a b : string) : registry_url a = registry_url b -> a = b.
Proof.
  unfold registry_url. intros H.
  apply append_cancel_l in H. apply append_cancel_r in H. exact H.
Qed.

Lemma crsUriToEPSG_inr (uri code : string) :
  crsUriToEPSG uri = inr code -> uri = EPSG_PREFIX ++ code.
Proof.
  unfold crsUriToEPSG. rewrite indexOf_zero.
  destruct (String.prefix EPSG_PREFIX uri) eqn:E; [|discriminate].
  destruct (prefix_split _ _ E) as [c ->].
  rewrite substr_append. congruence.
Qed.

Lemma not_prefixed (uri : string) :
  (forall code, uri <> EPSG_PREFIX ++ code) ->
  String.prefix EPSG_PREFIX uri = false.
Proof.
  intros Hno. destruct (String.prefix EPSG_PREFIX uri) eqn:E; [|reflexivity].
  destruct (prefix_split _ _ E) as [code Hc]. destruct (Hno code Hc).
Qed.

(** X7: the code returned by the URI parser determines the URI: prefixing it
    again gives the URI back, so two URIs with the same code are equal, and
    two different URIs that the parser accepts are looked up under different
    registry URLs. *)
Theorem crsUriToEPSG_determines_uri (uri1 uri2 code1 code2 : string) :
  crsUriToEPSG uri1 = inr code1 ->
  crsUriToEPSG uri2 = inr code2 ->
  uri1 = EPSG_PREFIX ++ code1 /\
  (code1 = code2 -> uri1 = uri2) /\
  (uri1 <> uri2 -> registry_url code1 <> registry_url code2).
Proof.
  intros H1 H2.
  apply crsUriToEPSG_inr in H1. apply crsUriToEPSG_inr in H2.
  split; [exact H1|]. split.
  - intros ->. congruence.
  - intros Hne Hurl. apply registry_url_inj in Hurl. congruence.
Qed.

Lemma crsUriToEPSG_determines_uri_witness :
  "http://www.opengis.net/def/crs/EPSG/0/27700" = EPSG_PREFIX ++ "27700" /\
  ("27700" = "4326" ->
   "http://www.opengis.net/def/crs/EPSG/0/27700"
     = "http://www.opengis.net/def/crs/EPSG/0/4326") /\
  ("http://www.opengis.net/def/crs/EPSG/0/27700"
     <> "http://www.opengis.net/def/crs/EPSG/0/4326" ->
   registry_url "27700" <> registry_url "4326").
Proof.
  apply (crsUriToEPSG_determines_uri
           "http://www.opengis.net/def/crs/EPSG/0/27700"
           "http://www.opengis.net/def/crs/EPSG/0/4326" "27700" "4326");
    reflexivity.
Defined.

(** ** The resolver, path by path *)



(** X9: when the transport fails, [load] of an uncached EPSG URI is rejected
    with the transport's error after its one request, the cache as it
    was. *)
Theorem load_network_failure proj4 (net : network) (log : list string)
    (code : string) (c : cache) (e : exn) :
  c !! (EPSG_PREFIX ++ code) = None ->
  net log (registry_url code) = Failed e ->
  exec net log (load proj4 (EPSG_PREFIX ++ code) c)
    = (Rejects e, c, (log ++ [registry_url code])%list).
Proof.
  intros Hc Hnet. rewrite (load_miss _ _ _ Hc). simpl. rewrite Hnet.
  reflexivity.
Qed.

Lemma load_network_failure_witness :
  exec net_down [] (load proj4_wgs84_only
                      "http://www.opengis.net/def/crs/EPSG/0/27700" ∅)
    = (Rejects (TypeError "Network request failed"), ∅,
       ["http://epsg.io/27700.proj4"]).
Proof.
  apply (load_network_failure proj4_wgs84_only net_down [] "27700" ∅).
  - apply lookup_empty.
  - reflexivity.
Defined.

Lemma ok_true (r : response) :
  (200 <= status r < 300)%N -> ok r = true.
Proof.
  intros [H1 H2]. unfold ok. apply andb_true_iff.
  split; [apply N.leb_le | apply N.ltb_lt]; assumption.
Qed.

(** X10: when the registry answers an uncached EPSG URI with a 2xx status and a
    body, the current [load] hands the body to [set] and is rejected with
    what [set] throws: the error for an empty argument when the body is
    empty, the ReferenceError for [proj4string] otherwise.  Nothing is
    stored, and the one request is not repeated. *)
Theorem load_success_response_rejected proj4 (net : network)
    (log : list string) (code body : string) (c : cache) (r : response) :
  c !! (EPSG_PREFIX ++ code) = None ->
  net log (registry_url code) = Responded r ->
  (200 <= status r < 300)%N ->
  text r = inr body ->
  exec net log (load proj4 (EPSG_PREFIX ++ code) c)
    = (Rejects (match body with
                | "" => Error "crsUri and proj cannot be empty"
                | String _ _ => ReferenceError "proj4string"
                end),
       c, (log ++ [registry_url code])%list).
Proof.
  intros Hc Hnet Hst Hbody. rewrite (load_miss _ _ _ Hc). simpl.
  rewrite Hnet. simpl. rewrite (ok_true _ Hst), Hbody. simpl.
  destruct body as [|x body].
  - reflexivity.
  - reflexivity.
Qed.

Lemma load_success_response_rejected_witness :
  exec net_bng [] (load proj4_bng_only
                     "http://www.opengis.net/def/crs/EPSG/0/27700" ∅)
    = (Rejects (ReferenceError "proj4string"), ∅,
       ["http://epsg.io/27700.proj4"]).
Proof.
  apply (load_success_response_rejected proj4_bng_only net_bng [] "27700"
           BNG_DEF ∅ {| status := 200; text := inr BNG_DEF |}).
  - apply lookup_empty.
  - reflexivity.
  - simpl. lia.
  - reflexivity.
Defined.

Lemma on_response_done proj4 (crsUri : string) (answer : fetch_outcome)
    (c : cache) :
  exists o c', on_response proj4 crsUri answer c = Done o c'.
Proof.
  unfold on_response. destruct answer as [e|r]; [eauto|].
  destruct (negb (ok r)); [eauto|].
  destruct (text r) as [e|body]; [eauto|].
  destruct (set _ _ _ _ c) as [[e|v] c']; eauto.
Qed.

Lemma on_response_v1_done proj4 (crsUri : string) (answer : fetch_outcome)
    (c : cache) :
  exists o c', on_response_v1 proj4 crsUri answer c = Done o c'.
Proof.
  unfold on_response_v1. destruct answer as [e|r]; [eauto|].
  destruct (negb (ok r)); [eauto|].
  destruct (text r) as [e|body]; [eauto|].
  destruct (load_v1_store _ _ _ c) as [[e|v] c']; eauto.
Qed.


(** ** The resolver of the earlier revision *)

(** Among the URIs with the EPSG prefix, the reordering table holds the one
    with code 4326 and no other. *)
Lemma has_key_reordering (code : string) :
  has_key (EPSG_PREFIX ++ code) needsLatLonReordering = String.eqb code "4326".
Proof.
  unfold has_key, needsLatLonReordering.
  destruct (String.eqb_spec code "4326") as [->|Hne].
  - apply bool_decide_eq_true. rewrite lookup_singleton_eq. eauto.
  - apply bool_decide_eq_false. intros [b Hb].
    apply lookup_singleton_Some in Hb as [Hk _].
    apply append_cancel_l in Hk. change ("4326" = code) in Hk. congruence.
Qed.

Lemma load_v1_miss proj4 (code : string) (c : cache) :
  c !! (EPSG_PREFIX ++ code) = None ->
  load_v1 proj4 (EPSG_PREFIX ++ code) c =
    Fetch (registry_url code) c (on_response_v1 proj4 (EPSG_PREFIX ++ code)).
Proof.
  intros H. unfold load_v1. rewrite H, crsUriToEPSG_prefixed. reflexivity.
Qed.

Lemma on_response_v1_parsed proj4 (code body : string) (p : Projection)
    (r : response) (c : cache) :
  (200 <= status r < 300)%N ->
  text r = inr body ->
  proj4 body = Some p ->
  let stored := Obj (if String.eqb code "4326" then flipLatLon p else p) in
  on_response_v1 proj4 (EPSG_PREFIX ++ code) (Responded r) c
    = Done (Resolves stored) (<[EPSG_PREFIX ++ code := stored]> c).
Proof.
  intros Hst Hbody Hp. unfold on_response_v1, load_v1_store.
  rewrite (ok_true _ Hst), Hbody, Hp, has_key_reordering. simpl.
  unfold get, read, store, mbind, M_bind. rewrite lookup_insert_eq.
  reflexivity.
Qed.

(** X12: In the earlier revision, when the registry answers an uncached EPSG URI
    with a 2xx status and a body that the construction facility understands,
    [load] resolves with the constructed projection, wrapped by [flipLatLon]
    exactly when the code is 4326, stores it under the URI, and has made one
    request. *)
Theorem load_v1_success proj4 (net : network) (log : list string)
    (code body : string) (p : Projection) (c : cache) (r : response) :
  c !! (EPSG_PREFIX ++ code) = None ->
  net log (registry_url code) = Responded r ->
  (200 <= status r < 300)%N ->
  text r = inr body ->
  proj4 body = Some p ->
  let stored := Obj (if String.eqb code "4326" then flipLatLon p else p) in
  exec net log (load_v1 proj4 (EPSG_PREFIX ++ code) c)
    = (Resolves stored, <[EPSG_PREFIX ++ code := stored]> c,
       (log ++ [registry_url code])%list).
Proof.
  intros Hc Hnet Hst Hbody Hp. simpl.
  rewrite (load_v1_miss _ _ _ Hc). simpl. rewrite Hnet.
  rewrite (on_response_v1_parsed proj4 code body p r c Hst Hbody Hp).
  reflexivity.
Qed.

Lemma load_v1_success_witness :
  exec net_bng [] (load_v1 proj4_bng_only
                     "http://www.opengis.net/def/crs/EPSG/0/27700" ∅)
    = (Resolves (Obj clamped_projection),
       <["http://www.opengis.net/def/crs/EPSG/0/27700"
           := Obj clamped_projection]> ∅,
       ["http://epsg.io/27700.proj4"]) /\
  exec net_bng [] (load_v1 proj4_bng_only
                     "http://www.opengis.net/def/crs/EPSG/0/4326" ∅)
    = (Resolves (Obj (flipLatLon clamped_projection)),
       <["http://www.opengis.net/def/crs/EPSG/0/4326"
           := Obj (flipLatLon clamped_projection)]> ∅,
       ["http://epsg.io/4326.proj4"]).
Proof.
  split.
  - apply (load_v1_success proj4_bng_only net_bng [] "27700" BNG_DEF
             clamped_projection ∅ {| status := 200; text := inr BNG_DEF |}).
    + apply lookup_empty.
    + reflexivity.
    + simpl. lia.
    + reflexivity.
    + reflexivity.
  - apply (load_v1_success proj4_bng_only net_bng [] "4326" BNG_DEF
             clamped_projection ∅ {| status := 200; text := inr BNG_DEF |}).
    + apply lookup_empty.
    + reflexivity.
    + simpl. lia.
    + reflexivity.
    + reflexivity.
Defined.

(** X13: In the earlier revision, a 2xx body that the construction facility does
    not understand makes [load] reject with the error quoting the body; the
    cache is as it was. *)
Theorem load_v1_parse_failure proj4 (net : network) (log : list string)
    (code body : string) (c : cache) (r : response) :
  c !! (EPSG_PREFIX ++ code) = None ->
  net log (registry_url code) = Responded r ->
  (200 <= status r < 300)%N ->
  text r = inr body ->
  proj4 body = None ->
  exec net log (load_v1 proj4 (EPSG_PREFIX ++ code) c)
    = (Rejects (Error ("Unsupported proj4 string: " ++ body)), c,
       (log ++ [registry_url code])%list).
Proof.
  intros Hc Hnet Hst Hbody Hp.
  rewrite (load_v1_miss _ _ _ Hc). simpl. rewrite Hnet.
  unfold on_response_v1, load_v1_store.
  rewrite (ok_true _ Hst), Hbody, Hp. reflexivity.
Qed.

Lemma load_v1_parse_failure_witness :
  exec net_garbage [] (load_v1 proj4_bng_only
                         "http://www.opengis.net/def/crs/EPSG/0/27700" ∅)
    = (Rejects (Error "Unsupported proj4 string: <html>"), ∅,
       ["http://epsg.io/27700.proj4"]).
Proof.
  apply (load_v1_parse_failure proj4_bng_only net_garbage [] "27700" "<html>"
           ∅ {| status := 200; text := inr "<html>" |}).
  - apply lookup_empty.
  - reflexivity.
  - simpl. lia.
  - reflexivity.
  - reflexivity.
Defined.

Lemma load_v1_store_all_or_nothing proj4 (crsUri body : string) (c : cache) :
  match load_v1_store proj4 crsUri body c with
  | (inr v, c') => c' = <[crsUri := v]> c
  | (inl _, c') => c' = c
  end.
Proof.
  unfold load_v1_store. destruct (proj4 body) as [p|]; [|reflexivity].
  unfold get, read, store, mbind, M_bind. rewrite lookup_insert_eq.
  reflexivity.
Qed.

Lemma load_v1_is_all_or_nothing proj4 (crsUri : string) (c : cache) :
  all_or_nothing crsUri c (load_v1 proj4 crsUri c).
Proof.
  unfold load_v1. destruct (c !! crsUri) as [v|] eqn:Hc.
  - simpl. symmetry. apply insert_id, Hc.
  - destruct (crsUriToEPSG crsUri) as [e|epsg]; [reflexivity|].
    split; [reflexivity|]. intros answer c1.
    unfold on_response_v1. destruct answer as [e|r]; [reflexivity|].
    destruct (negb (ok r)); [reflexivity|].
    destruct (text r) as [e|body]; [reflexivity|].
    pose proof (load_v1_store_all_or_nothing proj4 crsUri body c1) as H.
    destruct (load_v1_store _ _ _ c1) as [[e|v] c']; exact H.
Qed.

(** X14: the earlier [load] is all-or-nothing as well: run to its end against any
    network it ends fulfilled, with the cache the initial one plus the
    returned value under the URI, or thrown or rejected, with the cache the
    initial one; and its callbacks do the same on whatever cache they are
    resumed on. *)
Theorem load_v1_all_or_nothing proj4 (crsUri : string) (c : cache) :
  all_or_nothing crsUri c (load_v1 proj4 crsUri c) /\
  forall (net : network) (log : list string),
    match exec net log (load_v1 proj4 crsUri c) with
    | (Resolves v, c', _) => c' = <[crsUri := v]> c /\ c' !! crsUri = Some v
    | (Throws _, c', _) | (Rejects _, c', _) => c' = c
    end.
Proof.
  split; [apply load_v1_is_all_or_nothing|].
  intros net log. apply exec_all_or_nothing, load_v1_is_all_or_nothing.
Qed.

(** X15: once a call of [load] has been fulfilled, in either revision, every
    later call for the same URI on the cache it left is fulfilled with the
    same value, leaves that cache alone and adds no request, whatever the
    network does by then. *)
Theorem load_then_load proj4 (net net' : network) (log log1 : list string)
    (crsUri : string) (c c1 : cache) (v : value) :
  (exec net log (load proj4 crsUri c) = (Resolves v, c1, log1) ->
   exec net' log1 (load proj4 crsUri c1) = (Resolves v, c1, log1)) /\
  (exec net log (load_v1 proj4 crsUri c) = (Resolves v, c1, log1) ->
   exec net' log1 (load_v1 proj4 crsUri c1) = (Resolves v, c1, log1) /\
   exec net' log1 (load proj4 crsUri c1) = (Resolves v, c1, log1)).
Proof.
  split.
  - intros H.
    pose proof (exec_all_or_nothing net crsUri _ log c
                  (load_is_all_or_nothing proj4 crsUri c)) as Ha.
    rewrite H in Ha. destruct Ha as [_ Hv].
    rewrite (load_hit _ _ _ _ Hv). reflexivity.
  - intros H.
    pose proof (exec_all_or_nothing net crsUri _ log c
                  (load_v1_is_all_or_nothing proj4 crsUri c)) as Ha.
    rewrite H in Ha. destruct Ha as [_ Hv]. split.
    + unfold load_v1. rewrite Hv. reflexivity.
    + rewrite (load_hit _ _ _ _ Hv). reflexivity.
Qed.

Lemma load_then_load_witness :
  let uri := "http://www.opengis.net/def/crs/EPSG/0/27700" in
  let c1 : cache := <[uri := Obj clamped_projection]> ∅ in
  exec net_down ["http://epsg.io/27700.proj4"] (load_v1 proj4_bng_only uri c1)
    = (Resolves (Obj clamped_projection), c1, ["http://epsg.io/27700.proj4"]) /\
  exec net_down ["http://epsg.io/27700.proj4"] (load proj4_bng_only uri c1)
    = (Resolves (Obj clamped_projection), c1, ["http://epsg.io/27700.proj4"]).
Proof.
  apply (proj2 (load_then_load proj4_bng_only net_bng net_down []
                  ["http://epsg.io/27700.proj4"]
                  "http://www.opengis.net/def/crs/EPSG/0/27700" ∅ _
                  (Obj clamped_projection))).
  rewrite (load_v1_miss proj4_bng_only "27700" ∅ (lookup_empty _)).
  reflexivity.
Defined.



(** ** The axis corrector beyond pairs *)

(** X17: the wrapped [inverse] reads the first two components only: a third one
    (a height) never reaches the underlying [inverse], and a missing one
    reaches it as [undefined].  The wrapped [forward] reverses all of what
    the underlying [forward] returns, so that a third component comes
    first. *)
Theorem reverseAxes_other_lengths (P : Projection) :
  (forall a b rest,
     inverse (reverseAxes P) (a :: b :: rest) = inverse P [b; a]) /\
  (forall a, inverse (reverseAxes P) [a] = inverse P [Undef; a]) /\
  inverse (reverseAxes P) [] = inverse P [Undef; Undef] /\
  (forall pos x y z,
     forward P pos = [x; y; z] -> forward (reverseAxes P) pos = [z; y; x]) /\
  (forall pos, length (forward (reverseAxes P) pos) = length (forward P pos)).
Proof.
  split; [reflexivity|]. split; [reflexivity|]. split; [reflexivity|]. split.
  - intros pos x y z H. simpl. rewrite H. reflexivity.
  - intros pos. simpl. unfold reverse. apply length_rev.
Qed.

Lemma reverseAxes_other_lengths_witness :
  forward (reverseAxes identity_projection)
    [Num (-71)%float; Num 41%float; Num 100%float]
  = [Num 100%float; Num 41%float; Num (-71)%float].
Proof.
  apply (proj1 (proj2 (proj2 (proj2
           (reverseAxes_other_lengths identity_projection))))).
  reflexivity.
Defined.

(** X18: wrapping twice restores [forward] on arrays of every length, while the
    twice wrapped [inverse] is the underlying [inverse] of the first two
    components. *)
Theorem reverseAxes_twice (P : Projection) :
  (forall pos, forward (reverseAxes (reverseAxes P)) pos = forward P pos) /\
  (forall a b rest,
     inverse (reverseAxes (reverseAxes P)) (a :: b :: rest) = inverse P [a; b]).
Proof.
  split.
  - intros pos. simpl. apply reverse_involutive.
  - reflexivity.
Qed.

(** X19: a projection whose [forward] and [inverse] are inverse to each other on
    coordinate pairs, [forward] returning pairs, stays so when wrapped. *)
Theorem reverseAxes_preserves_inverses (P : Projection) :
  (forall a b, exists x y, forward P [a; b] = [x; y]) ->
  (forall a b, inverse P (forward P [a; b]) = [a; b]) ->
  (forall a b, forward P (inverse P [a; b]) = [a; b]) ->
  forall a b,
    inverse (reverseAxes P) (forward (reverseAxes P) [a; b]) = [a; b] /\
    forward (reverseAxes P) (inverse (reverseAxes P) [a; b]) = [a; b].
Proof.
  intros Hpair Hif Hfi a b. split.
  - destruct (Hpair a b) as (x & y & Hxy). simpl. rewrite Hxy. simpl.
    unfold at_index. simpl. rewrite <- Hxy. apply Hif.
  - unfold reverseAxes, at_index. simpl. rewrite Hfi. reflexivity.
Qed.

Lemma reverseAxes_preserves_inverses_witness :
  inverse (reverseAxes identity_projection)
    (forward (reverseAxes identity_projection) [Num (-71)%float; Num 41%float])
    = [Num (-71)%float; Num 41%float] /\
  forward (reverseAxes identity_projection)
    (inverse (reverseAxes identity_projection) [Num (-71)%float; Num 41%float])
    = [Num (-71)%float; Num 41%float].
Proof.
  apply (reverseAxes_preserves_inverses identity_projection).
  - intros a b. exists a, b. reflexivity.
  - intros a b. reflexivity.
  - intros a b. reflexivity.
Defined.
